(** * MusicCaps clip download: the notebook's [download_clip] and [process]

    A shallow embedding of the code cell of [data/download_musiccaps.ipynb]
    that defines [download_clip] (window adjustment, command construction,
    retry loop, post-condition check), the per-row driver [process] and the
    map of [main] over the dataset.

    Modelling conventions.
    - Python integers are [Z]; the dataset columns [start_s] and [end_s] are
      integers, so [int(start_time)] is the identity on them.
    - Python [str] values are [string]; a character is a code point below 256.
      [str.strip()] removes the code points that [str.isspace] accepts.
    - The shell, the file system and [pathlib] are not part of the notebook:
      they are the operations of a [Platform], over an arbitrary type of
      worlds.  Every theorem holds for every platform.
    - The [while True] loop runs on fuel: [None] is "no result within the
      fuel given", so a result for every large enough fuel is termination and
      [None] for every fuel is divergence.
    - The machine state carries, next to the world, the list of the command
      strings handed to the shell so far (newest first). *)

From Stdlib Require Import ZArith String Ascii List DecimalString Bool Lia.
Import ListNotations.

Local Open Scope string_scope.
Local Open Scope Z_scope.

(** ** Python strings *)

Module PyStr.

(** [str(n)] for an integer. *)
Definition str (n : Z) : string := NilZero.string_of_int (Z.to_int n).

(** [c.isspace()] on the code points below 256. *)
Definition isspace (c : ascii) : bool :=
  let n := N_of_ascii c in
  (((9 <=? n) && (n <=? 13)) || ((28 <=? n) && (n <=? 32))
   || (n =? 133) || (n =? 160))%N.

Fixpoint lstrip (s : string) : string :=
  match s with
  | EmptyString => EmptyString
  | String c s' => if isspace c then lstrip s' else s
  end.

Fixpoint rstrip (s : string) : string :=
  match s with
  | EmptyString => EmptyString
  | String c s' =>
      match rstrip s' with
      | EmptyString => if isspace c then EmptyString else String c EmptyString
      | r => String c r
      end
  end.

(** [s.strip()] *)
Definition strip (s : string) : string := rstrip (lstrip s).

(** Every character of [s] is whitespace. *)
Fixpoint all_space (s : string) : bool :=
  match s with
  | EmptyString => true
  | String c s' => isspace c && all_space s'
  end.

(** [s] is not empty and its last character is not whitespace. *)
Fixpoint ends_nonspace (s : string) : bool :=
  match s with
  | EmptyString => false
  | String c s' =>
      match s' with
      | EmptyString => negb (isspace c)
      | String _ _ => ends_nonspace s'
      end
  end.

(** [p in s]: [p] occurs in [s] as a contiguous run of characters. *)
Fixpoint contains (p s : string) : bool :=
  String.prefix p s
  || match s with
     | EmptyString => false
     | String _ s' => contains p s'
     end.

Definition dquote : string := String "034" EmptyString.
Definition newline : string := String "010" EmptyString.

End PyStr.

Import PyStr.

(** ** The window adjustment and the command line of [download_clip] *)

(** Lines [if int(start_time) > 15: ... else: ...]: the pair
    [(start_time, end_time)] after the adjustment, as integers.  The source
    rebinds the variables to [str(...)] of these numbers (and leaves
    [start_time] as it was in the [else] branch); the f-string renders all of
    them through [str]. *)
Definition adjust_window (start_time end_time : Z) : Z * Z :=
  if start_time >? 15
  then (start_time - 15, end_time + 15)
  else (start_time, end_time + 30).

(** The f-string before [.strip()]: a newline and eight blanks, the yt-dlp
    line, a newline and four blanks.  [start_time] and [end_time] are the
    rendered window bounds. *)
Definition command_template
    (output_filename start_time end_time url_base video_identifier : string)
  : string :=
  newline ++ "        "
  ++ "yt-dlp --quiet --no-warnings -x --audio-format wav -f bestaudio -o "
  ++ dquote ++ output_filename ++ dquote
  ++ " --download-sections " ++ dquote ++ "*" ++ start_time ++ "-" ++ end_time
  ++ dquote ++ " " ++ url_base ++ video_identifier
  ++ newline ++ "    ".

(** The value of [command] in [download_clip]. *)
Definition command
    (video_identifier output_filename : string) (start_time end_time : Z)
    (url_base : string) : string :=
  let '(start_time, end_time) := adjust_window start_time end_time in
  strip (command_template output_filename (str start_time) (str end_time)
           url_base video_identifier).

(** Everything of the command that precedes [{url_base}{video_identifier}]. *)
Definition command_head
    (output_filename : string) (start_time end_time : Z) : string :=
  let '(start_time, end_time) := adjust_window start_time end_time in
  "yt-dlp --quiet --no-warnings -x --audio-format wav -f bestaudio -o "
  ++ dquote ++ output_filename ++ dquote
  ++ " --download-sections " ++ dquote ++ "*" ++ str start_time ++ "-"
  ++ str end_time ++ dquote ++ " ".

Definition default_tmp_dir : string := "./tmp/musiccaps".
Definition default_num_attempts : Z := 5.
Definition default_url_base : string := "https://www.youtube.com/watch?v=".

(** ** The platform: shell, file system, pathlib *)

(** What the notebook asks of its environment.
    - [shell command w]: run [command] through the shell in world [w]; the
      exit status, the captured output (standard output and standard error
      together) and the world afterwards.
    - [path_exists p w]: [os.path.exists(p)].
    - [path_join d name]: [str(Path(d) / name)]. *)
Class Platform (World : Type) : Type := {
  shell : string -> World -> (Z * string) * World;
  path_exists : string -> World -> bool;
  path_join : string -> string -> string
}.

(** The result of [subprocess.check_output]: the output when the exit status
    is zero, the exception [CalledProcessError] otherwise. *)
Inductive completed : Type :=
| Output (output : string)
| CalledProcessError (returncode : Z) (output : string).

(** The second component of the tuple [download_clip] returns: the bytes
    [err.output] or the text ['Downloaded']. *)
Inductive message : Type :=
| MBytes (output : string)
| MStr (text : string).

(** How the [while True] loop is left: by [return] or by [break]. *)
Inductive loop_exit : Type :=
| Return (result : bool * message)
| Break (output : string).

(** A dataset row: the columns the driver reads and the two it writes (absent
    until written).  The other columns pass through untouched. *)
Record Example : Type := {
  ytid : string;
  start_s : Z;
  end_s : Z;
  audio : option string;
  download_status : option bool
}.

Section Notebook.

Context {World : Type} {P : Platform World}.

(** The machine state: the world and the commands handed to the shell so
    far, newest first. *)
Record Sys : Type := { world : World; calls : list string }.

(** Computations: state passing; [None] when the fuel ran out. *)
Definition M (A : Type) : Type := Sys -> option (A * Sys).

Definition ret {A : Type} (a : A) : M A := fun st => Some (a, st).

Definition bind {A B : Type} (m : M A) (k : A -> M B) : M B :=
  fun st =>
    match m st with
    | None => None
    | Some (a, st') => k a st'
    end.

Notation "x <- m ;; k" := (bind m (fun x => k))
  (at level 61, m at next level, right associativity).

(** [subprocess.check_output(command, shell=True, stderr=subprocess.STDOUT)] *)
Definition check_output (command : string) : M completed :=
  fun st =>
    let '((returncode, output), w) := shell command (world st) in
    Some (if returncode =? 0 then Output output
          else CalledProcessError returncode output,
          {| world := w; calls := command :: calls st |}).

(** [os.path.exists(path)] *)
Definition os_path_exists (path : string) : M bool :=
  fun st => Some (path_exists path (world st), st).

(** The [while True] loop of [download_clip], entered with the current value
    of [attempts]. *)
Fixpoint while_true (fuel : nat) (command : string) (status : bool)
    (num_attempts attempts : Z) : M loop_exit :=
  match fuel with
  | O => fun _ => None
  | S fuel' =>
      r <- check_output command ;;
      match r with
      | CalledProcessError _ err_output =>
          let attempts := attempts + 1 in
          if attempts =? num_attempts
          then ret (Return (status, MBytes err_output))
          else while_true fuel' command status num_attempts attempts
      | Output output => ret (Break output)
      end
  end.

Definition download_clip (fuel : nat)
    (video_identifier output_filename : string) (start_time end_time : Z)
    (tmp_dir : string) (num_attempts : Z) (url_base : string)
  : M (bool * message) :=
  let status := false in
  let command :=
    command video_identifier output_filename start_time end_time url_base in
  let attempts := 0 in
  e <- while_true fuel command status num_attempts attempts ;;
  match e with
  | Return result => ret result
  | Break _ =>
      (* Check if the video was successfully saved. *)
      status <- os_path_exists output_filename ;;
      ret (status, MStr "Downloaded")
  end.

(** The closure [process] of [main]; [data_dir] is the variable it captures. *)
Definition process (fuel : nat) (data_dir : string) (example : Example)
  : M Example :=
  let outfile_path := path_join data_dir (ytid example ++ ".wav") in
  let status := true in
  present <- os_path_exists outfile_path ;;
  status <- (if negb present
             then
               let status := false in
               r <- download_clip fuel (ytid example) outfile_path
                      (start_s example) (end_s example)
                      default_tmp_dir default_num_attempts default_url_base ;;
               ret (fst r)
             else ret status) ;;
  ret {| ytid := ytid example;
         start_s := start_s example;
         end_s := end_s example;
         audio := Some outfile_path;
         download_status := Some status |}.

(** *** Describing what the external tool does *)

(** The world after [k] invocations of [command], starting from [w]. *)
Fixpoint world_after (command : string) (k : nat) (w : World) : World :=
  match k with
  | O => w
  | S k' => world_after command k' (snd (shell command w))
  end.

(** Exit status and captured output of invocation number [k + 1] of
    [command], counting from world [w]. *)
Definition attempt (command : string) (k : nat) (w : World) : Z * string :=
  fst (shell command (world_after command k w)).

Definition fails (r : Z * string) : Prop := fst r <> 0.
Definition succeeds (r : Z * string) : Prop := fst r = 0.

(** The first [n] invocations of [command] from [w] all fail. *)
Definition all_fail (command : string) (n : nat) (w : World) : Prop :=
  forall i : nat, (i < n)%nat -> fails (attempt command i w).

(** Invocation number [k] (counting from 1) is the first that succeeds. *)
Definition first_success_at (command : string) (k : nat) (w : World) : Prop :=
  (1 <= k)%nat
  /\ all_fail command (k - 1) w
  /\ succeeds (attempt command (k - 1) w).

(** The state after [n] more invocations of [command]. *)
Definition after_calls (command : string) (n : nat) (st : Sys) : Sys :=
  {| world := world_after command n (world st);
     calls := (repeat command n ++ calls st)%list |}.

(** The number of shell invocations made between two states. *)
Definition invocations (before after : Sys) : Z :=
  Z.of_nat (length (calls after)) - Z.of_nat (length (calls before)).

(** [download_clip] returns, having made at most [budget] invocations. *)
Definition returns_within (budget : Z)
    (video_identifier output_filename : string) (start_time end_time : Z)
    (tmp_dir : string) (num_attempts : Z) (url_base : string) (st : Sys)
  : Prop :=
  exists (fuel : nat) (r : bool * message) (st' : Sys),
    download_clip fuel video_identifier output_filename start_time end_time
      tmp_dir num_attempts url_base st = Some (r, st')
    /\ invocations st st' <= budget.

End Notebook.

Arguments Sys World : clear implicits.

(** ** A scripted platform, for running the code on concrete inputs *)

Module Sim.

(** One scripted run of the tool: exit status, captured output, and the
    paths it creates. *)
Record step : Type := {
  exit_status : Z;
  captured : string;
  creates : list string
}.

(** The script still to play and the files on disk. *)
Record t : Type := { script : list step; disk : list string }.

(** With the script played out, the tool fails with status 1. *)
Definition run (command : string) (w : t) : (Z * string) * t :=
  match script w with
  | [] => ((1, "ERROR: unavailable"), w)
  | s :: rest =>
      ((exit_status s, captured s),
       {| script := rest; disk := (creates s ++ disk w)%list |})
  end.

Definition on_disk (path : string) (w : t) : bool :=
  existsb (String.eqb path) (disk w).

#[global] Instance platform : Platform t := {
  shell := run;
  path_exists := on_disk;
  path_join := fun d name => d ++ "/" ++ name
}.

Definition ok (out : string) (files : list string) : step :=
  {| exit_status := 0; captured := out; creates := files |}.

Definition ko (out : string) : step :=
  {| exit_status := 1; captured := out; creates := [] |}.

Definition start (steps : list step) (files : list string) : Sys t :=
  {| world := {| script := steps; disk := files |}; calls := [] |}.

End Sim.

(** ** The map of [main] over the dataset *)

Section Driver.

Context {World : Type} {P : Platform World}.


(** The row [process] builds from [example] once it knows the status. *)
Definition recorded_row (data_dir : string) (example : Example)
    (status : bool) : Example :=
  {| ytid := ytid example;
     start_s := start_s example;
     end_s := end_s example;
     audio := Some (path_join data_dir (ytid example ++ ".wav"));
     download_status := Some status |}.

End Driver.

(** ** Facts about [strip] and [contains] *)

Module PyStrFacts.

Lemma rstrip_all_space (s : string) :
  all_space s = true -> rstrip s = EmptyString.
Proof.
  induction s as [|c s IH]; simpl; [reflexivity|].
  intros H. apply andb_prop in H as [Hc Hs].
  now rewrite (IH Hs), Hc.
Qed.

Lemma ends_nonspace_nonempty (s : string) :
  ends_nonspace s = true -> s <> EmptyString.
Proof. destruct s; simpl; [discriminate | intros _ H; discriminate H]. Qed.

Lemma rstrip_ends_nonspace (s : string) :
  ends_nonspace s = true -> rstrip s = s.
Proof.
  induction s as [|c s IH]; [discriminate|].
  destruct s as [|d s].
  - simpl. intros H. apply negb_true_iff in H. now rewrite H.
  - intros H. change (ends_nonspace (String d s) = true) in H.
    specialize (IH H).
    change (rstrip (String c (String d s)))
      with (match rstrip (String d s) with
            | EmptyString =>
                if isspace c then EmptyString else String c EmptyString
            | String a r => String c (String a r)
            end).
    now rewrite IH.
Qed.

Lemma rstrip_app_space (s ws : string) :
  all_space ws = true -> rstrip (s ++ ws) = rstrip s.
Proof.
  intros Hws. induction s as [|c s IH]; simpl.
  - now apply rstrip_all_space.
  - now rewrite IH.
Qed.

Lemma ends_nonspace_app (a b : string) :
  ends_nonspace b = true -> ends_nonspace (a ++ b) = true.
Proof.
  intros Hb. induction a as [|c a IH]; [exact Hb|].
  simpl. destruct (a ++ b) eqn:E; [|exact IH].
  simpl in IH. discriminate IH.
Qed.

(** Stripping a text that ends in a visible character, followed by blanks. *)
Lemma rstrip_app (s ws : string) :
  ends_nonspace s = true -> all_space ws = true -> rstrip (s ++ ws) = s.
Proof.
  intros Hs Hws. rewrite rstrip_app_space by exact Hws.
  now apply rstrip_ends_nonspace.
Qed.

Lemma prefix_app (p s : string) : String.prefix p (p ++ s) = true.
Proof.
  induction p as [|c p IH]; simpl; [now destruct s|].
  destruct (ascii_dec c c) as [_|N]; [exact IH | now elim N].
Qed.

Lemma contains_app (p pre suf : string) :
  contains p (pre ++ p ++ suf) = true.
Proof.
  induction pre as [|c pre IH].
  - change (contains p (p ++ suf) = true).
    pose proof (prefix_app p suf) as H.
    destruct (p ++ suf); cbn [contains]; now rewrite H.
  - change (String.prefix p (String c (pre ++ p ++ suf))
            || contains p (pre ++ p ++ suf) = true).
    rewrite IH. apply orb_true_r.
Qed.

End PyStrFacts.

(** ** The retry loop *)

Section LoopFacts.

Context {World : Type} {P : Platform World}.

Variables (cmd : string) (status : bool) (num_attempts : Z).

Lemma repeat_shift (x : string) (n : nat) (l : list string) :
  (repeat x n ++ (x :: l) = x :: (repeat x n ++ l))%list.
Proof. induction n as [|n IH]; simpl; [reflexivity | now rewrite IH]. Qed.

Lemma after_calls_0 (st : Sys World) : after_calls cmd 0 st = st.
Proof. now destruct st. Qed.

Lemma after_calls_S (n : nat) (st : Sys World) :
  after_calls cmd n (after_calls cmd 1 st) = after_calls cmd (S n) st.
Proof.
  unfold after_calls; simpl. f_equal. apply repeat_shift.
Qed.

Lemma world_after_last (n : nat) :
  forall w : World,
    snd (shell cmd (world_after cmd n w)) = world_after cmd (S n) w.
Proof.
  induction n as [|n IH]; intros w; [reflexivity|].
  simpl. rewrite IH. reflexivity.
Qed.

Lemma after_calls_last (n : nat) (st : Sys World) :
  after_calls cmd 1 (after_calls cmd n st) = after_calls cmd (S n) st.
Proof.
  unfold after_calls. cbn [world calls repeat app].
  f_equal. change (world_after cmd 1 (world_after cmd n (world st)))
    with (snd (shell cmd (world_after cmd n (world st)))).
  apply world_after_last.
Qed.

Lemma invocations_after_calls (n : nat) (st : Sys World) :
  invocations st (after_calls cmd n st) = Z.of_nat n.
Proof.
  unfold invocations, after_calls; simpl.
  rewrite length_app, repeat_length. lia.
Qed.

Lemma attempt_S (i : nat) (st : Sys World) :
  attempt cmd i (world (after_calls cmd 1 st)) = attempt cmd (S i) (world st).
Proof. reflexivity. Qed.

(** One pass through the loop body when the invocation fails. *)
Lemma while_true_fail (fuel : nat) (attempts : Z) (st : Sys World) :
  fails (attempt cmd 0 (world st)) ->
  while_true (S fuel) cmd status num_attempts attempts st
  = if attempts + 1 =? num_attempts
    then Some (Return (status, MBytes (snd (attempt cmd 0 (world st)))),
               after_calls cmd 1 st)
    else while_true fuel cmd status num_attempts (attempts + 1)
           (after_calls cmd 1 st).
Proof.
  unfold fails, attempt, after_calls. simpl.
  unfold bind, check_output.
  destruct (shell cmd (world st)) as [[rc out] w]; simpl.
  intros Hrc. apply Z.eqb_neq in Hrc. rewrite Hrc.
  now destruct (attempts + 1 =? num_attempts).
Qed.

(** One pass through the loop body when the invocation succeeds. *)
Lemma while_true_ok (fuel : nat) (attempts : Z) (st : Sys World) :
  succeeds (attempt cmd 0 (world st)) ->
  while_true (S fuel) cmd status num_attempts attempts st
  = Some (Break (snd (attempt cmd 0 (world st))), after_calls cmd 1 st).
Proof.
  unfold succeeds, attempt, after_calls. simpl.
  unfold bind, check_output.
  destruct (shell cmd (world st)) as [[rc out] w]; simpl.
  intros Hrc. apply Z.eqb_eq in Hrc. now rewrite Hrc.
Qed.

(** [j] failed invocations, none of which exhausts the budget, are [j]
    silent retries. *)
Lemma while_true_retry (j : nat) :
  forall (fuel : nat) (attempts : Z) (st : Sys World),
    all_fail cmd j (world st) ->
    (forall i : nat, (i < j)%nat -> attempts + Z.of_nat i + 1 <> num_attempts) ->
    while_true (j + fuel) cmd status num_attempts attempts st
    = while_true fuel cmd status num_attempts (attempts + Z.of_nat j)
        (after_calls cmd j st).
Proof.
  induction j as [|j IH]; intros fuel attempts st Hfail Hneq.
  - rewrite after_calls_0, Z.add_0_r. reflexivity.
  - change (S j + fuel)%nat with (S (j + fuel)).
    rewrite while_true_fail by (apply Hfail; lia).
    assert (H0 : (attempts + 1 =? num_attempts) = false).
    { apply Z.eqb_neq. specialize (Hneq 0%nat). simpl in Hneq.
      rewrite Z.add_0_r in Hneq. apply Hneq. lia. }
    rewrite H0, IH.
    + rewrite after_calls_S. f_equal. lia.
    + intros i Hi. rewrite attempt_S. apply Hfail. lia.
    + intros i Hi. specialize (Hneq (S i)). lia.
Qed.

(** With a positive budget not yet used up, the loop is left within the
    budget that remains, after at least one invocation. *)
Lemma while_true_bounded (fuel : nat) :
  forall (attempts : Z) (st : Sys World),
    0 <= attempts < num_attempts ->
    (Z.to_nat (num_attempts - attempts) <= fuel)%nat ->
    exists (e : loop_exit) (n : nat),
      (1 <= n)%nat /\ Z.of_nat n <= num_attempts - attempts
      /\ while_true fuel cmd status num_attempts attempts st
         = Some (e, after_calls cmd n st).
Proof.
  induction fuel as [|fuel IH]; intros attempts st Ha Hfuel; [lia|].
  destruct (Z.eq_dec (fst (attempt cmd 0 (world st))) 0) as [Hok|Hko].
  - exists (Break (snd (attempt cmd 0 (world st)))), 1%nat.
    split; [lia | split; [lia | now apply while_true_ok]].
  - rewrite while_true_fail by exact Hko.
    destruct (attempts + 1 =? num_attempts) eqn:E.
    + eexists _, 1%nat. split; [lia | split; [lia | reflexivity]].
    + apply Z.eqb_neq in E.
      destruct (IH (attempts + 1) (after_calls cmd 1 st))
        as (e & n & Hn1 & Hn2 & Hrun); [lia | lia |].
      exists e, (S n). rewrite Hrun, after_calls_S.
      split; [lia | split; [lia | reflexivity]].
Qed.

(** Whenever the loop is left, at least one invocation was made, and every
    invocation was of [cmd]. *)
Lemma while_true_calls (fuel : nat) :
  forall (attempts : Z) (st st' : Sys World) (e : loop_exit),
    while_true fuel cmd status num_attempts attempts st = Some (e, st') ->
    exists n : nat, (1 <= n <= fuel)%nat /\ st' = after_calls cmd n st.
Proof.
  induction fuel as [|fuel IH]; intros attempts st st' e; [discriminate|].
  destruct (Z.eq_dec (fst (attempt cmd 0 (world st))) 0) as [Hok|Hko].
  - rewrite while_true_ok by exact Hok. intros [= _ <-].
    exists 1%nat. split; [lia | reflexivity].
  - rewrite while_true_fail by exact Hko.
    destruct (attempts + 1 =? num_attempts).
    + intros [= _ <-]. exists 1%nat. split; [lia | reflexivity].
    + intros Hrun. apply IH in Hrun as (n & Hn & ->).
      exists (S n). rewrite after_calls_S. split; [lia | reflexivity].
Qed.

(** A budget that is already passed is never met again: with a tool that
    keeps failing, no amount of fuel leaves the loop. *)
Lemma while_true_diverges (fuel : nat) :
  forall (attempts : Z) (st : Sys World),
    num_attempts <= attempts ->
    (forall k : nat, fails (attempt cmd k (world st))) ->
    while_true fuel cmd status num_attempts attempts st = None.
Proof.
  induction fuel as [|fuel IH]; intros attempts st Ha Hfail; [reflexivity|].
  rewrite while_true_fail by apply Hfail.
  replace (attempts + 1 =? num_attempts) with false
    by (symmetry; apply Z.eqb_neq; lia).
  apply IH; [lia|]. intros k. rewrite attempt_S. apply Hfail.
Qed.

End LoopFacts.

(** ** [download_clip] *)

Section DownloadClipFacts.

Context {World : Type} {P : Platform World}.

Variables (video_identifier output_filename : string).
Variables (start_time end_time : Z) (tmp_dir url_base : string).

Local Abbreviation cmd :=
  (command video_identifier output_filename start_time end_time url_base).

(** When no failure before the first success exhausts the budget, the
    function reaches the post-condition check after that success. *)
Lemma download_clip_first_success
    (num_attempts : Z) (k fuel : nat) (st : Sys World) :
  first_success_at cmd k (world st) ->
  (forall i : nat, (i < k - 1)%nat -> Z.of_nat i + 1 <> num_attempts) ->
  (k <= fuel)%nat ->
  download_clip fuel video_identifier output_filename start_time end_time
    tmp_dir num_attempts url_base st
  = Some ((path_exists output_filename (world_after cmd k (world st)),
           MStr "Downloaded"),
          after_calls cmd k st).
Proof.
  intros (Hk & Hfail & Hok) Hbudget Hfuel.
  unfold download_clip, bind.
  replace fuel with ((k - 1) + S (fuel - k))%nat by lia.
  rewrite while_true_retry by (simpl; assumption).
  rewrite while_true_ok by exact Hok.
  rewrite after_calls_last.
  replace (S (k - 1)) with k by lia. reflexivity.
Qed.

(** When the first [num_attempts] invocations fail, the function returns at
    the last of them with its captured output. *)
Lemma download_clip_exhausted
    (num_attempts : Z) (fuel : nat) (st : Sys World) :
  1 <= num_attempts ->
  all_fail cmd (Z.to_nat num_attempts) (world st) ->
  (Z.to_nat num_attempts <= fuel)%nat ->
  download_clip fuel video_identifier output_filename start_time end_time
    tmp_dir num_attempts url_base st
  = Some ((false,
           MBytes (snd (attempt cmd (Z.to_nat num_attempts - 1) (world st)))),
          after_calls cmd (Z.to_nat num_attempts) st).
Proof.
  intros Hn Hfail Hfuel.
  set (n := Z.to_nat num_attempts) in *.
  unfold download_clip, bind.
  replace fuel with ((n - 1) + S (fuel - n))%nat by lia.
  rewrite while_true_retry.
  - rewrite while_true_fail by (apply (Hfail (n - 1)%nat); lia).
    replace (0 + Z.of_nat (n - 1) + 1 =? num_attempts) with true
      by (symmetry; apply Z.eqb_eq; lia).
    rewrite after_calls_last. replace (S (n - 1)) with n by lia. reflexivity.
  - intros i Hi. apply Hfail. lia.
  - intros i Hi. lia.
Qed.

(** Whenever the function returns, it has handed [cmd], and nothing else, to
    the shell at least once, and has left the world as the tool left it. *)
Lemma download_clip_calls
    (num_attempts : Z) (fuel : nat) (st st' : Sys World) (r : bool * message) :
  download_clip fuel video_identifier output_filename start_time end_time
    tmp_dir num_attempts url_base st = Some (r, st') ->
  exists n : nat, (1 <= n <= fuel)%nat /\ st' = after_calls cmd n st.
Proof.
  unfold download_clip, bind.
  destruct (while_true fuel cmd false num_attempts 0 st) as [[e st1]|] eqn:E;
    [|discriminate].
  apply while_true_calls in E as (n & Hn & ->).
  destruct e as [result|output]; intros [= _ <-]; now exists n.
Qed.

(** With a positive budget the function returns within it. *)
Lemma download_clip_bounded
    (num_attempts : Z) (fuel : nat) (st : Sys World) :
  1 <= num_attempts ->
  (Z.to_nat num_attempts <= fuel)%nat ->
  exists (r : bool * message) (n : nat),
    (1 <= n)%nat /\ Z.of_nat n <= num_attempts
    /\ download_clip fuel video_identifier output_filename start_time end_time
         tmp_dir num_attempts url_base st
       = Some (r, after_calls cmd n st).
Proof.
  intros Hn Hfuel. unfold download_clip, bind.
  destruct (while_true_bounded cmd false num_attempts fuel 0 st)
    as (e & n & Hn1 & Hn2 & ->); [lia | now rewrite Z.sub_0_r |].
  destruct e as [result|output]; eexists _, n;
    (split; [exact Hn1 | split; [lia | reflexivity]]).
Qed.

End DownloadClipFacts.

(** ** The window adjustment *)

(** C1. The window adjustment computes exactly: when [start_time > 15] the
    adjusted start is [start_time - 15] and the adjusted end is
    [end_time + 15]; otherwise ([start_time <= 15]) the start is unchanged and
    the adjusted end is [end_time + 30].  These are the bounds the command
    line is rendered with. *)
Theorem adjust_window_spec (start_time end_time : Z) :
  (start_time > 15 ->
   adjust_window start_time end_time = (start_time - 15, end_time + 15)
   /\ forall video_identifier output_filename url_base : string,
       command video_identifier output_filename start_time end_time url_base
       = strip (command_template output_filename (str (start_time - 15))
                  (str (end_time + 15)) url_base video_identifier))
  /\ (start_time <= 15 ->
      adjust_window start_time end_time = (start_time, end_time + 30)
      /\ forall video_identifier output_filename url_base : string,
          command video_identifier output_filename start_time end_time
            url_base
          = strip (command_template output_filename (str start_time)
                     (str (end_time + 30)) url_base video_identifier)).
Proof.
  unfold command, adjust_window.
  destruct (Z.gtb_spec start_time 15) as [Hgt|Hle]; split; intros H;
    solve [split; reflexivity | lia].
Qed.

Lemma adjust_window_spec_witness :
  adjust_window 30 40 = (15, 55) /\ adjust_window 5 12 = (5, 42).
Proof.
  split.
  - apply (proj1 (adjust_window_spec 30 40)). lia.
  - apply (proj2 (adjust_window_spec 5 12)). lia.
Defined.

(** C9. The adjusted window is exactly 30 seconds wider than the requested
    one, in both branches, and a start time that is not negative stays so. *)
Theorem adjust_window_width (start_time end_time : Z) :
  snd (adjust_window start_time end_time)
  - fst (adjust_window start_time end_time)
  = (end_time - start_time) + 30
  /\ (0 <= start_time -> 0 <= fst (adjust_window start_time end_time)).
Proof.
  unfold adjust_window.
  destruct (Z.gtb_spec start_time 15) as [Hgt|Hle]; simpl; split; lia.
Qed.

Lemma adjust_window_width_witness :
  snd (adjust_window 16 20) - fst (adjust_window 16 20) = (20 - 16) + 30
  /\ 0 <= fst (adjust_window 16 20).
Proof.
  destruct (adjust_window_width 16 20) as [Hwidth Hstart].
  split; [exact Hwidth | apply Hstart; lia].
Defined.

(** ** The command line *)

Lemma append_assoc (a b c : string) : (a ++ b) ++ c = a ++ b ++ c.
Proof. induction a as [|x a IH]; simpl; [reflexivity | now rewrite IH]. Qed.

(** The f-string is blanks, then the yt-dlp line, then blanks. *)
Lemma command_template_parts
    (output_filename : string) (start_time end_time : Z)
    (url_base video_identifier : string) :
  let '(a, b) := adjust_window start_time end_time in
  command_template output_filename (str a) (str b) url_base video_identifier
  = (newline ++ "        ")
    ++ (command_head output_filename start_time end_time
        ++ url_base ++ video_identifier)
    ++ (newline ++ "    ").
Proof.
  unfold command_template, command_head.
  destruct (adjust_window start_time end_time) as [a b].
  rewrite !append_assoc. reflexivity.
Qed.

Lemma command_head_starts (output_filename : string) (start_time end_time : Z) :
  exists rest : string,
    command_head output_filename start_time end_time = String "y" rest.
Proof.
  unfold command_head. destruct (adjust_window start_time end_time) as [a b].
  simpl. eexists. reflexivity.
Qed.

Lemma command_stripped
    (video_identifier output_filename : string) (start_time end_time : Z)
    (url_base : string) :
  ends_nonspace (url_base ++ video_identifier) = true ->
  command video_identifier output_filename start_time end_time url_base
  = command_head output_filename start_time end_time
    ++ url_base ++ video_identifier.
Proof.
  intros Hend. unfold command.
  pose proof (command_template_parts output_filename start_time end_time
                url_base video_identifier) as Hparts.
  destruct (adjust_window start_time end_time) as [a b] eqn:Hw.
  rewrite Hparts. unfold strip.
  destruct (command_head_starts output_filename start_time end_time)
    as [rest Hhead].
  assert (Hl : lstrip ((newline ++ "        ")
                       ++ (command_head output_filename start_time end_time
                           ++ url_base ++ video_identifier)
                       ++ newline ++ "    ")
               = (command_head output_filename start_time end_time
                  ++ url_base ++ video_identifier) ++ newline ++ "    ").
  { rewrite Hhead. reflexivity. }
  rewrite Hl. apply PyStrFacts.rstrip_app; [|reflexivity].
  now apply PyStrFacts.ends_nonspace_app.
Qed.

(** C7, as the code has it.  The identifier is put into the command right
    after the URL base with no escaping or quoting, and the whole text is
    then stripped: when [url_base] followed by the identifier ends in a
    character that is not whitespace (every identifier that does not end in
    whitespace, with the default URL base), the command is the yt-dlp line up
    to the URL, the URL base, and the identifier as it came; and that string
    is what every invocation of a returning [download_clip] hands to the
    shell, at least once. *)
Theorem command_ends_with_identifier
    {World : Type} {P : Platform World}
    (video_identifier output_filename : string) (start_time end_time : Z)
    (url_base : string) :
  ends_nonspace (url_base ++ video_identifier) = true ->
  command video_identifier output_filename start_time end_time url_base
  = command_head output_filename start_time end_time
    ++ url_base ++ video_identifier
  /\ forall (fuel : nat) (tmp_dir : string) (num_attempts : Z)
       (st st' : Sys World) (r : bool * message),
      download_clip fuel video_identifier output_filename start_time end_time
        tmp_dir num_attempts url_base st = Some (r, st') ->
      exists n : nat,
        (1 <= n)%nat
        /\ calls st'
           = (repeat (command_head output_filename start_time end_time
                      ++ url_base ++ video_identifier)%string n
              ++ calls st)%list.
Proof.
  intros Hend. split; [now apply command_stripped|].
  intros fuel tmp_dir num_attempts st st' r Hrun.
  apply download_clip_calls in Hrun as (n & Hn & ->).
  exists n. split; [lia|]. simpl.
  now rewrite command_stripped.
Qed.

Lemma command_ends_with_identifier_witness :
  command "x; rm -rf ~" "o/x.wav" 30 40 default_url_base
  = command_head "o/x.wav" 30 40 ++ default_url_base ++ "x; rm -rf ~".
Proof.
  apply (@command_ends_with_identifier Sim.t Sim.platform
           "x; rm -rf ~" "o/x.wav" 30 40 default_url_base).
  reflexivity.
Defined.

(** C7, as stated, fails: an identifier that ends in a blank does not reach
    the shell as it came, the final blank is stripped, so the command does
    not contain the URL base followed by that identifier. *)
Lemma command_identifier_verbatim_counterexample :
  ~ (exists pre suf : string,
        command "abc " "o/abc.wav" 30 40 default_url_base
        = pre ++ (default_url_base ++ "abc ") ++ suf).
Proof.
  intros (pre & suf & H).
  pose proof (PyStrFacts.contains_app (default_url_base ++ "abc ") pre suf)
    as Hc.
  rewrite <- H in Hc. vm_compute in Hc. discriminate Hc.
Qed.

(** ** The retry loop and the post-condition check of [download_clip] *)

(** On the scripted platform, a tool whose script is played out fails at
    every invocation. *)
Lemma sim_played_out_fails (command : string) (files : list string) (k : nat) :
  fails (attempt command k {| Sim.script := []; Sim.disk := files |}).
Proof.
  unfold fails, attempt.
  assert (H : world_after command k {| Sim.script := []; Sim.disk := files |}
              = {| Sim.script := []; Sim.disk := files |})
    by (induction k as [|k IH]; [reflexivity | exact IH]).
  rewrite H. simpl. discriminate.
Qed.

(** C2. For [num_attempts >= 1], when the tool fails on every invocation
    (the first [num_attempts] of them are all that is asked), [download_clip]
    returns [False] with the captured output of the last failed attempt, and
    has made exactly [num_attempts] invocations. *)
Theorem download_clip_all_attempts_fail
    {World : Type} {P : Platform World}
    (video_identifier output_filename : string) (start_time end_time : Z)
    (tmp_dir : string) (num_attempts : Z) (url_base : string)
    (fuel : nat) (st : Sys World) :
  let cmd :=
    command video_identifier output_filename start_time end_time url_base in
  let n := Z.to_nat num_attempts in
  1 <= num_attempts ->
  all_fail cmd n (world st) ->
  (n <= fuel)%nat ->
  download_clip fuel video_identifier output_filename start_time end_time
    tmp_dir num_attempts url_base st
  = Some ((false, MBytes (snd (attempt cmd (n - 1) (world st)))),
          after_calls cmd n st)
  /\ invocations st (after_calls cmd n st) = num_attempts.
Proof.
  intros cmd n Hn Hfail Hfuel. split.
  - now apply download_clip_exhausted.
  - rewrite invocations_after_calls. subst n. lia.
Qed.

Lemma download_clip_all_attempts_fail_witness :
  download_clip 5 "xyz" "o/xyz.wav" 5 12 default_tmp_dir 5 default_url_base
    (Sim.start [] [])
  = Some ((false, MBytes "ERROR: unavailable"),
          after_calls (command "xyz" "o/xyz.wav" 5 12 default_url_base) 5
            (Sim.start [] []))
  /\ invocations (Sim.start [] [])
       (after_calls (command "xyz" "o/xyz.wav" 5 12 default_url_base) 5
          (Sim.start [] []))
     = 5.
Proof.
  exact (download_clip_all_attempts_fail "xyz" "o/xyz.wav" 5 12
           default_tmp_dir 5 default_url_base 5%nat (Sim.start [] [])
           ltac:(lia)
           (fun i _ => sim_played_out_fails _ _ i)
           ltac:(simpl; lia)).
Defined.

(** C3. When the tool succeeds for the first time on attempt [k], with
    [k <= num_attempts], and the destination file exists afterwards,
    [download_clip] returns [(True, 'Downloaded')] after exactly [k]
    invocations. *)
Theorem download_clip_succeeds_on_attempt
    {World : Type} {P : Platform World}
    (video_identifier output_filename : string) (start_time end_time : Z)
    (tmp_dir : string) (num_attempts : Z) (url_base : string)
    (k fuel : nat) (st : Sys World) :
  let cmd :=
    command video_identifier output_filename start_time end_time url_base in
  first_success_at cmd k (world st) ->
  Z.of_nat k <= num_attempts ->
  path_exists output_filename (world_after cmd k (world st)) = true ->
  (k <= fuel)%nat ->
  download_clip fuel video_identifier output_filename start_time end_time
    tmp_dir num_attempts url_base st
  = Some ((true, MStr "Downloaded"), after_calls cmd k st)
  /\ invocations st (after_calls cmd k st) = Z.of_nat k.
Proof.
  intros cmd Hfirst Hk Hfile Hfuel. subst cmd. split.
  - rewrite (download_clip_first_success video_identifier output_filename
               start_time end_time tmp_dir url_base num_attempts k fuel st
               Hfirst); [now rewrite Hfile | intros i Hi; lia | exact Hfuel].
  - apply invocations_after_calls.
Qed.

Lemma download_clip_succeeds_on_attempt_witness :
  download_clip 3 "abc123" "o/abc123.wav" 30 40 default_tmp_dir 5
    default_url_base
    (Sim.start [Sim.ko "e1"; Sim.ko "e2"; Sim.ok "" ["o/abc123.wav"]] [])
  = Some ((true, MStr "Downloaded"),
          after_calls (command "abc123" "o/abc123.wav" 30 40 default_url_base)
            3
            (Sim.start [Sim.ko "e1"; Sim.ko "e2"; Sim.ok "" ["o/abc123.wav"]]
               []))
  /\ invocations
       (Sim.start [Sim.ko "e1"; Sim.ko "e2"; Sim.ok "" ["o/abc123.wav"]] [])
       (after_calls (command "abc123" "o/abc123.wav" 30 40 default_url_base)
          3
          (Sim.start [Sim.ko "e1"; Sim.ko "e2"; Sim.ok "" ["o/abc123.wav"]]
             []))
     = 3.
Proof.
  refine (download_clip_succeeds_on_attempt "abc123" "o/abc123.wav" 30 40
            default_tmp_dir 5 default_url_base 3%nat 3%nat
            (Sim.start [Sim.ko "e1"; Sim.ko "e2"; Sim.ok "" ["o/abc123.wav"]]
               [])
            _ _ _ _).
  - split; [lia | split].
    + intros i Hi. destruct i as [|[|i]]; [discriminate | discriminate |].
      simpl in Hi. lia.
    + reflexivity.
  - lia.
  - reflexivity.
  - lia.
Defined.

(** C4. When the tool reports success (for the first time on attempt [k])
    but the destination file does not exist afterwards, [download_clip]
    returns [False]: through the post-condition check when attempt [k] is
    reached, through the exhausted budget when it is not. *)
Theorem download_clip_missing_file_fails
    {World : Type} {P : Platform World}
    (video_identifier output_filename : string) (start_time end_time : Z)
    (tmp_dir : string) (num_attempts : Z) (url_base : string)
    (k fuel : nat) (st : Sys World) :
  let cmd :=
    command video_identifier output_filename start_time end_time url_base in
  first_success_at cmd k (world st) ->
  path_exists output_filename (world_after cmd k (world st)) = false ->
  (k <= fuel)%nat ->
  exists (msg : message) (st' : Sys World),
    download_clip fuel video_identifier output_filename start_time end_time
      tmp_dir num_attempts url_base st
    = Some ((false, msg), st').
Proof.
  intros cmd Hfirst Hfile Hfuel. subst cmd.
  pose proof Hfirst as (Hk & Hfail & Hok).
  destruct (Z_le_gt_dec 1 num_attempts) as [H1|H1];
    [destruct (Z_le_gt_dec num_attempts (Z.of_nat (k - 1))) as [H2|H2]|].
  - eexists _, _. apply download_clip_exhausted;
      [lia | intros i Hi; apply Hfail; lia | lia].
  - eexists _, _.
    rewrite (download_clip_first_success video_identifier output_filename
               start_time end_time tmp_dir url_base num_attempts k fuel st
               Hfirst); [now rewrite Hfile | intros i Hi; lia | exact Hfuel].
  - eexists _, _.
    rewrite (download_clip_first_success video_identifier output_filename
               start_time end_time tmp_dir url_base num_attempts k fuel st
               Hfirst); [now rewrite Hfile | intros i Hi; lia | exact Hfuel].
Qed.

Lemma download_clip_missing_file_fails_witness :
  exists (msg : message) (st' : Sys Sim.t),
    download_clip 2 "abc123" "o/abc123.wav" 30 40 default_tmp_dir 5
      default_url_base (Sim.start [Sim.ko "e1"; Sim.ok "done" []] [])
    = Some ((false, msg), st').
Proof.
  refine (download_clip_missing_file_fails "abc123" "o/abc123.wav" 30 40
            default_tmp_dir 5 default_url_base 2%nat 2%nat
            (Sim.start [Sim.ko "e1"; Sim.ok "done" []] [])
            _ _ _).
  - split; [lia | split].
    + intros i Hi. destruct i as [|i]; [discriminate|]. simpl in Hi. lia.
    + reflexivity.
  - reflexivity.
  - lia.
Defined.

(** C5, at the input where the code departs from it.  The tool exits with
    status 0 on the first attempt and writes no file: [download_clip]
    returns [False] together with the text ['Downloaded'], not with the
    output it captured. *)
Theorem download_clip_downloaded_without_file :
  option_map fst
    (download_clip 1 "abc123" "o/abc123.wav" 30 40 default_tmp_dir 5
       default_url_base
       (Sim.start [Sim.ok "WARNING: nothing was written" []] []))
  = Some (false, MStr "Downloaded").
Proof. reflexivity. Qed.

(** C6, as the code has it.  For [num_attempts >= 1], whatever the tool
    does, [download_clip] returns (for every fuel of at least
    [num_attempts]) after at least one and at most [num_attempts]
    invocations. *)
Theorem download_clip_terminates_within_budget
    {World : Type} {P : Platform World}
    (video_identifier output_filename : string) (start_time end_time : Z)
    (tmp_dir : string) (num_attempts : Z) (url_base : string)
    (fuel : nat) (st : Sys World) :
  1 <= num_attempts ->
  (Z.to_nat num_attempts <= fuel)%nat ->
  exists (r : bool * message) (st' : Sys World),
    download_clip fuel video_identifier output_filename start_time end_time
      tmp_dir num_attempts url_base st = Some (r, st')
    /\ 1 <= invocations st st' <= num_attempts.
Proof.
  intros Hn Hfuel.
  destruct (download_clip_bounded video_identifier output_filename start_time
              end_time tmp_dir url_base num_attempts fuel st Hn Hfuel)
    as (r & n & Hn1 & Hn2 & Hrun).
  exists r, (after_calls
               (command video_identifier output_filename start_time end_time
                  url_base) n st).
  split; [exact Hrun|]. rewrite invocations_after_calls. lia.
Qed.

Lemma download_clip_terminates_within_budget_witness :
  exists (r : bool * message) (st' : Sys Sim.t),
    download_clip 5 "xyz" "o/xyz.wav" 5 12 default_tmp_dir 5 default_url_base
      (Sim.start [Sim.ko "e1"; Sim.ok "" ["o/xyz.wav"]] []) = Some (r, st')
    /\ 1 <= invocations (Sim.start [Sim.ko "e1"; Sim.ok "" ["o/xyz.wav"]] [])
              st' <= 5.
Proof.
  refine (download_clip_terminates_within_budget "xyz" "o/xyz.wav" 5 12
            default_tmp_dir 5 default_url_base 5%nat
            (Sim.start [Sim.ko "e1"; Sim.ok "" ["o/xyz.wav"]] [])
            _ _).
  - lia.
  - simpl. lia.
Defined.

(** C6, as stated, fails at [num_attempts = 0].  With a tool that keeps
    failing, the counter passes 0 at once and never meets it again: no fuel
    makes [download_clip] return.  With a tool that succeeds at once, one
    invocation is made, which is more than 0. *)
Lemma download_clip_zero_budget_counterexample :
  ~ returns_within 0 "xyz" "o/xyz.wav" 5 12 default_tmp_dir 0 default_url_base
      (Sim.start [] [])
  /\ ~ returns_within 0 "xyz" "o/xyz.wav" 5 12 default_tmp_dir 0
         default_url_base (Sim.start [Sim.ok "" ["o/xyz.wav"]] []).
Proof.
  split; intros (fuel & r & st' & Hrun & Hcount).
  - unfold download_clip, bind in Hrun.
    rewrite while_true_diverges in Hrun; [discriminate | lia |].
    intros k. apply sim_played_out_fails.
  - apply download_clip_calls in Hrun as (n & Hn & ->).
    rewrite invocations_after_calls in Hcount. lia.
Qed.

(** ** The per-row driver [process] *)

Section ProcessFacts.

Context {World : Type} {P : Platform World}.

Variables (data_dir : string) (example : Example).

Local Abbreviation outfile_path :=
  (path_join data_dir (ytid example ++ ".wav")).

(** The row as [process] returns it, given the status it recorded. *)
Local Abbreviation recorded status :=
  {| ytid := ytid example;
     start_s := start_s example;
     end_s := end_s example;
     audio := Some outfile_path;
     download_status := Some status |}.

(** The destination file is there: the row is returned at once, and the
    state (world and shell log) is the one [process] started in. *)
Lemma process_skip (fuel : nat) (st : Sys World) :
  path_exists outfile_path (world st) = true ->
  process fuel data_dir example st = Some (recorded true, st).
Proof.
  intros Hfile. unfold process, bind, os_path_exists, ret.
  rewrite Hfile. reflexivity.
Qed.

(** The destination file is not there: the status recorded is the one
    [download_clip] returns, called with its default arguments. *)
Lemma process_download (fuel : nat) (st st' : Sys World)
    (r : bool * message) :
  path_exists outfile_path (world st) = false ->
  download_clip fuel (ytid example) outfile_path (start_s example)
    (end_s example) default_tmp_dir default_num_attempts default_url_base st
  = Some (r, st') ->
  process fuel data_dir example st = Some (recorded (fst r), st').
Proof.
  intros Hfile Hrun. unfold process, bind, os_path_exists, ret.
  rewrite Hfile. simpl.
  unfold bind. rewrite Hrun. reflexivity.
Qed.

End ProcessFacts.

(** C8. A row whose destination file is already there is skipped: [process]
    returns in the state it started in, so nothing was handed to the shell
    (a call of [download_clip] that returns always leaves at least one
    command in the log).  And for every row, with or without a download,
    [process] returns (fuel 5 is enough) the row with the audio path and a
    boolean download status recorded, the other columns as they were. *)
Theorem process_skips_and_records
    {World : Type} {P : Platform World}
    (data_dir : string) (example : Example) (fuel : nat) (st : Sys World) :
  let outfile_path := path_join data_dir (ytid example ++ ".wav") in
  (path_exists outfile_path (world st) = true ->
   exists example' : Example,
     process fuel data_dir example st = Some (example', st)
     /\ invocations st st = 0)
  /\ ((5 <= fuel)%nat ->
      exists (example' : Example) (st' : Sys World) (status : bool),
        process fuel data_dir example st = Some (example', st')
        /\ audio example' = Some outfile_path
        /\ download_status example' = Some status
        /\ ytid example' = ytid example
        /\ start_s example' = start_s example
        /\ end_s example' = end_s example).
Proof.
  intros outfile_path. split.
  - intros Hfile. eexists. split.
    + now apply process_skip.
    + unfold invocations. lia.
  - intros Hfuel.
    destruct (path_exists outfile_path (world st)) eqn:Hfile.
    + eexists _, st, true. split; [now apply process_skip|].
      repeat split.
    + destruct (download_clip_bounded (ytid example) outfile_path
                  (start_s example) (end_s example) default_tmp_dir
                  default_url_base default_num_attempts fuel st)
        as (r & n & _ & _ & Hrun);
        [unfold default_num_attempts; lia | simpl; lia |].
      eexists _, _, (fst r). split.
      * apply process_download; [exact Hfile | exact Hrun].
      * repeat split.
Qed.

Lemma process_skips_and_records_witness :
  (exists example' : Example,
      process 5 "music_data"
        {| ytid := "abc123"; start_s := 30; end_s := 40;
           audio := None; download_status := None |}
        (Sim.start [] ["music_data/abc123.wav"])
      = Some (example', Sim.start [] ["music_data/abc123.wav"])
      /\ invocations (Sim.start [] ["music_data/abc123.wav"])
           (Sim.start [] ["music_data/abc123.wav"]) = 0)
  /\ (exists (example' : Example) (st' : Sys Sim.t) (status : bool),
         process 5 "music_data"
           {| ytid := "abc123"; start_s := 30; end_s := 40;
              audio := None; download_status := None |}
           (Sim.start [] ["music_data/abc123.wav"])
         = Some (example', st')
         /\ audio example' = Some "music_data/abc123.wav"
         /\ download_status example' = Some status
         /\ ytid example' = "abc123"
         /\ start_s example' = 30
         /\ end_s example' = 40).
Proof.
  destruct (process_skips_and_records "music_data"
              {| ytid := "abc123"; start_s := 30; end_s := 40;
                 audio := None; download_status := None |}
              5%nat (Sim.start [] ["music_data/abc123.wav"]))
    as [Hskip Hrecord].
  split; [apply Hskip; reflexivity | apply Hrecord; lia].
Defined.

(** C10. For a row whose destination file is already there, the status
    recorded is [True], whatever the file holds: [process] returns in the
    state it started in, without any invocation, and only [os.path.exists]
    has looked at the world. *)
Theorem process_existing_file_status_true
    {World : Type} {P : Platform World}
    (data_dir : string) (example : Example) (fuel : nat) (st : Sys World) :
  path_exists (path_join data_dir (ytid example ++ ".wav")) (world st) = true ->
  exists example' : Example,
    process fuel data_dir example st = Some (example', st)
    /\ download_status example' = Some true.
Proof.
  intros Hfile. eexists. split.
  - now apply process_skip.
  - reflexivity.
Qed.

Lemma process_existing_file_status_true_witness :
  exists example' : Example,
    process 0 "music_data"
      {| ytid := "abc123"; start_s := 30; end_s := 40;
         audio := None; download_status := None |}
      (Sim.start [Sim.ok "" ["music_data/abc123.wav"]]
         ["music_data/abc123.wav"])
    = Some (example',
            Sim.start [Sim.ok "" ["music_data/abc123.wav"]]
              ["music_data/abc123.wav"])
    /\ download_status example' = Some true.
Proof.
  apply (process_existing_file_status_true "music_data"
           {| ytid := "abc123"; start_s := 30; end_s := 40;
              audio := None; download_status := None |}
           0%nat
           (Sim.start [Sim.ok "" ["music_data/abc123.wav"]]
              ["music_data/abc123.wav"])).
  reflexivity.
Defined.

(** ** The two scenarios of the specification, run on the scripted platform *)

Example command_abc123 :
  command "abc123" "o/abc123.wav" 30 40 default_url_base
  = "yt-dlp --quiet --no-warnings -x --audio-format wav -f bestaudio -o "
    ++ dquote ++ "o/abc123.wav" ++ dquote ++ " --download-sections "
    ++ dquote ++ "*15-55" ++ dquote
    ++ " https://www.youtube.com/watch?v=abc123".
Proof. reflexivity. Qed.

Example command_xyz :
  command "xyz" "o/xyz.wav" 5 12 default_url_base
  = "yt-dlp --quiet --no-warnings -x --audio-format wav -f bestaudio -o "
    ++ dquote ++ "o/xyz.wav" ++ dquote ++ " --download-sections "
    ++ dquote ++ "*5-42" ++ dquote
    ++ " https://www.youtube.com/watch?v=xyz".
Proof. reflexivity. Qed.

(** The tool succeeds on the first attempt and writes the file: one
    invocation, [(True, 'Downloaded')]. *)
Example scenario_first_attempt :
  download_clip 5 "abc123" "o/abc123.wav" 30 40 default_tmp_dir 5
    default_url_base (Sim.start [Sim.ok "" ["o/abc123.wav"]] [])
  = Some ((true, MStr "Downloaded"),
          {| world := {| Sim.script := []; Sim.disk := ["o/abc123.wav"] |};
             calls := [command "abc123" "o/abc123.wav" 30 40
                         default_url_base] |}).
Proof. reflexivity. Qed.

(** The tool always fails: five invocations, [False] and the output of the
    fifth. *)
Example scenario_always_fails :
  download_clip 5 "xyz" "o/xyz.wav" 5 12 default_tmp_dir 5 default_url_base
    (Sim.start [Sim.ko "e1"; Sim.ko "e2"; Sim.ko "e3"; Sim.ko "e4";
                Sim.ko "e5"; Sim.ko "e6"] [])
  = Some ((false, MBytes "e5"),
          {| world := {| Sim.script := [Sim.ko "e6"]; Sim.disk := [] |};
             calls := repeat (command "xyz" "o/xyz.wav" 5 12 default_url_base)
                        5 |}).
Proof. reflexivity. Qed.

(** An identifier that ends in a blank reaches the shell without it. *)
Example command_trailing_blank :
  command "abc " "o/abc.wav" 30 40 default_url_base
  = command "abc" "o/abc.wav" 30 40 default_url_base.
Proof. reflexivity. Qed.

(** * Further properties *)

(** ** More on the window *)

(** The adjusted window contains the requested one: the start moves back by
    at most 15 seconds and never forward, the end moves forward by at least
    15 and at most 30 seconds. *)
Theorem adjust_window_contains (start_time end_time : Z) :
  start_time - 15 <= fst (adjust_window start_time end_time) <= start_time
  /\ end_time + 15 <= snd (adjust_window start_time end_time) <= end_time + 30.
Proof.
  unfold adjust_window.
  destruct (Z.gtb_spec start_time 15); simpl; lia.
Qed.

(** ** More on the command line *)

Lemma rstrip_empty_or_visible (s : string) :
  rstrip s = EmptyString \/ ends_nonspace (rstrip s) = true.
Proof.
  induction s as [|c s IH]; [now left|].
  simpl. destruct (rstrip s) as [|d r] eqn:E.
  - destruct (isspace c) eqn:Hc; [now left | right].
    simpl. now rewrite Hc.
  - right. destruct IH as [IH|IH]; [discriminate IH | exact IH].
Qed.

Lemma rstrip_idempotent (s : string) : rstrip (rstrip s) = rstrip s.
Proof.
  destruct (rstrip_empty_or_visible s) as [H|H].
  - now rewrite H.
  - now apply PyStrFacts.rstrip_ends_nonspace.
Qed.

Lemma rstrip_cons (c : ascii) (s : string) :
  rstrip (String c s)
  = match rstrip s with
    | EmptyString => if isspace c then EmptyString else String c EmptyString
    | String x r => String c (String x r)
    end.
Proof. reflexivity. Qed.

(** What precedes a visible character is out of reach of [rstrip]. *)
Lemma rstrip_app_visible (a b : string) :
  ends_nonspace a = true -> rstrip (a ++ b) = a ++ rstrip b.
Proof.
  induction a as [|c a IH]; [discriminate|].
  destruct a as [|d a].
  - simpl. intros H. apply negb_true_iff in H.
    destruct (rstrip b); [now rewrite H | reflexivity].
  - intros H. change (ends_nonspace (String d a) = true) in H.
    specialize (IH H).
    change (String c (String d a) ++ b) with (String c (String d a ++ b)).
    rewrite rstrip_cons, IH. reflexivity.
Qed.

Lemma rstrip_app_rstrip (a b : string) :
  rstrip (a ++ rstrip b) = rstrip (a ++ b).
Proof.
  induction a as [|c a IH]; simpl.
  - apply rstrip_idempotent.
  - now rewrite IH.
Qed.

(** The command is the yt-dlp line with its right end stripped. *)
Lemma command_rstrip
    (video_identifier output_filename : string) (start_time end_time : Z)
    (url_base : string) :
  command video_identifier output_filename start_time end_time url_base
  = rstrip (command_head output_filename start_time end_time
            ++ url_base ++ video_identifier).
Proof.
  unfold command.
  pose proof (command_template_parts output_filename start_time end_time
                url_base video_identifier) as Hparts.
  destruct (adjust_window start_time end_time) as [a b] eqn:Hw.
  rewrite Hparts. unfold strip.
  destruct (command_head_starts output_filename start_time end_time)
    as [rest Hhead].
  rewrite Hhead.
  change (lstrip ((newline ++ "        ")
                  ++ (String "y" rest ++ url_base ++ video_identifier)
                  ++ newline ++ "    "))
    with ((String "y" rest ++ url_base ++ video_identifier)
          ++ newline ++ "    ").
  now apply PyStrFacts.rstrip_app_space.
Qed.

(** For every input, the command starts with the fixed options, the output
    file name as it came between double quotes, and the adjusted window
    between double quotes; stripping reaches no further than the URL. *)
Theorem command_closed_form
    (video_identifier output_filename : string) (start_time end_time : Z)
    (url_base : string) :
  command video_identifier output_filename start_time end_time url_base
  = "yt-dlp --quiet --no-warnings -x --audio-format wav -f bestaudio -o "
    ++ dquote ++ output_filename ++ dquote
    ++ " --download-sections " ++ dquote ++ "*"
    ++ str (fst (adjust_window start_time end_time)) ++ "-"
    ++ str (snd (adjust_window start_time end_time)) ++ dquote
    ++ rstrip (" " ++ url_base ++ video_identifier).
Proof.
  rewrite command_rstrip. unfold command_head.
  destruct (adjust_window start_time end_time) as [a b]. cbn [fst snd].
  set (opts := "yt-dlp --quiet --no-warnings -x --audio-format wav -f bestaudio -o ").
  transitivity
    (rstrip ((opts ++ dquote ++ output_filename ++ dquote
              ++ " --download-sections " ++ dquote ++ "*" ++ str a ++ "-"
              ++ str b ++ dquote)
             ++ " " ++ url_base ++ video_identifier)).
  { f_equal. rewrite !append_assoc. reflexivity. }
  rewrite rstrip_app_visible.
  - rewrite !append_assoc. reflexivity.
  - rewrite <- !append_assoc. apply PyStrFacts.ends_nonspace_app. reflexivity.
Qed.

(** Whitespace at the end of the identifier never reaches the shell: the
    command is the one of the identifier without it. *)
Theorem command_ignores_trailing_whitespace
    (video_identifier output_filename : string) (start_time end_time : Z)
    (url_base : string) :
  command video_identifier output_filename start_time end_time url_base
  = command (rstrip video_identifier) output_filename start_time end_time
      url_base.
Proof.
  rewrite !command_rstrip, <- !append_assoc.
  symmetry. apply rstrip_app_rstrip.
Qed.

(** ** How a run of [download_clip] can end *)

Section Inversion.

Context {World : Type} {P : Platform World}.

Variables (cmd : string) (status : bool) (num_attempts : Z).

(** Every way out of the loop: [m] failures that did not meet the budget,
    then either a success ([break]) or the failure that meets it
    ([return]). *)
Lemma while_true_inversion (fuel : nat) :
  forall (attempts : Z) (st st' : Sys World) (e : loop_exit),
    while_true fuel cmd status num_attempts attempts st = Some (e, st') ->
    exists m : nat,
      (m < fuel)%nat
      /\ st' = after_calls cmd (S m) st
      /\ all_fail cmd m (world st)
      /\ (forall i : nat,
             (i < m)%nat -> attempts + Z.of_nat i + 1 <> num_attempts)
      /\ ((succeeds (attempt cmd m (world st))
           /\ e = Break (snd (attempt cmd m (world st))))
          \/ (fails (attempt cmd m (world st))
              /\ e = Return (status, MBytes (snd (attempt cmd m (world st))))
              /\ attempts + Z.of_nat m + 1 = num_attempts)).
Proof.
  induction fuel as [|fuel IH]; intros attempts st st' e; [discriminate|].
  destruct (Z.eq_dec (fst (attempt cmd 0 (world st))) 0) as [Hok|Hko].
  - rewrite while_true_ok by exact Hok. intros [= <- <-].
    exists 0%nat. split; [lia | split; [reflexivity | split]].
    + intros i Hi. lia.
    + split; [intros i Hi; lia | left; split; [exact Hok | reflexivity]].
  - rewrite while_true_fail by exact Hko.
    destruct (attempts + 1 =? num_attempts) eqn:E.
    + apply Z.eqb_eq in E. intros [= <- <-].
      exists 0%nat. split; [lia | split; [reflexivity | split]].
      * intros i Hi. lia.
      * split; [intros i Hi; lia|].
        right. split; [exact Hko | split; [reflexivity | simpl; lia]].
    + apply Z.eqb_neq in E. intros Hrun.
      apply IH in Hrun as (m & Hm & -> & Hfail & Hbudget & Hend).
      exists (S m). split; [lia | split; [now rewrite after_calls_S | split]].
      * intros i Hi. destruct i as [|i]; [exact Hko|].
        rewrite <- attempt_S. apply Hfail. lia.
      * split.
        -- intros i Hi. destruct i as [|i]; [simpl; lia|].
           specialize (Hbudget i). lia.
        -- rewrite attempt_S in Hend.
           destruct Hend as [Hend|(Hf & He & Hn)]; [left; exact Hend|].
           right. split; [exact Hf | split; [exact He | lia]].
Qed.

End Inversion.

(** Every way [download_clip] can return. *)
Lemma download_clip_ends
    {World : Type} {P : Platform World}
    (video_identifier output_filename : string) (start_time end_time : Z)
    (tmp_dir : string) (num_attempts : Z) (url_base : string)
    (fuel : nat) (st st' : Sys World) (ok : bool) (msg : message) :
  let cmd :=
    command video_identifier output_filename start_time end_time url_base in
  download_clip fuel video_identifier output_filename start_time end_time
    tmp_dir num_attempts url_base st = Some ((ok, msg), st') ->
  exists m : nat,
    (m < fuel)%nat
    /\ st' = after_calls cmd (S m) st
    /\ all_fail cmd m (world st)
    /\ (1 <= num_attempts -> Z.of_nat (S m) <= num_attempts)
    /\ ((succeeds (attempt cmd m (world st))
         /\ msg = MStr "Downloaded"
         /\ ok = path_exists output_filename (world st'))
        \/ (fails (attempt cmd m (world st))
            /\ msg = MBytes (snd (attempt cmd m (world st)))
            /\ ok = false
            /\ Z.of_nat (S m) = num_attempts)).
Proof.
  intros cmd. unfold download_clip, bind. fold cmd.
  destruct (while_true fuel cmd false num_attempts 0 st) as [[e st1]|] eqn:E;
    [|discriminate].
  apply while_true_inversion in E
    as (m & Hm & -> & Hfail & Hbudget & Hend).
  assert (Hwithin : 1 <= num_attempts -> Z.of_nat (S m) <= num_attempts).
  { intros H1.
    destruct (Z_le_gt_dec (Z.of_nat (S m)) num_attempts) as [Hle|Hgt];
      [exact Hle|].
    exfalso. apply (Hbudget (Z.to_nat (num_attempts - 1))); lia. }
  destruct Hend as [(Hok & ->)|(Hko & -> & Hn)].
  - unfold os_path_exists, ret. intros [= <- <- <-].
    exists m. split; [exact Hm | split; [reflexivity | split; [exact Hfail|]]].
    split; [exact Hwithin|]. left. now split.
  - unfold ret. intros [= <- <- <-].
    exists m. split; [exact Hm | split; [reflexivity | split; [exact Hfail|]]].
    split; [exact Hwithin|]. right.
    split; [exact Hko | split; [reflexivity | split; [reflexivity | lia]]].
Qed.

(** Whenever [download_clip] returns, it has run the one command [m + 1]
    times; the first [m] runs failed without meeting the budget, and the last
    run decides: if it succeeded the result is the existence of the
    destination file with the text ['Downloaded'], if it failed it met the
    budget and the result is [False] with its captured output.  With a budget
    of at least 1 the number of runs is within it. *)
Theorem download_clip_inversion
    {World : Type} {P : Platform World}
    (video_identifier output_filename : string) (start_time end_time : Z)
    (tmp_dir : string) (num_attempts : Z) (url_base : string)
    (fuel : nat) (st st' : Sys World) (ok : bool) (msg : message) :
  let cmd :=
    command video_identifier output_filename start_time end_time url_base in
  download_clip fuel video_identifier output_filename start_time end_time
    tmp_dir num_attempts url_base st = Some ((ok, msg), st') ->
  exists m : nat,
    (m < fuel)%nat
    /\ st' = after_calls cmd (S m) st
    /\ all_fail cmd m (world st)
    /\ (1 <= num_attempts -> Z.of_nat (S m) <= num_attempts)
    /\ ((succeeds (attempt cmd m (world st))
         /\ msg = MStr "Downloaded"
         /\ ok = path_exists output_filename (world st'))
        \/ (fails (attempt cmd m (world st))
            /\ msg = MBytes (snd (attempt cmd m (world st)))
            /\ ok = false
            /\ Z.of_nat (S m) = num_attempts)).
Proof. intros cmd. apply download_clip_ends. Qed.

Lemma download_clip_inversion_witness :
  exists m : nat,
    (m < 3)%nat
    /\ {| world := {| Sim.script := []; Sim.disk := ["o/abc123.wav"] |};
          calls := repeat (command "abc123" "o/abc123.wav" 30 40
                             default_url_base) 2 |}
       = after_calls (command "abc123" "o/abc123.wav" 30 40 default_url_base)
           (S m)
           (Sim.start [Sim.ko "e1"; Sim.ok "" ["o/abc123.wav"]] [])
    /\ all_fail (command "abc123" "o/abc123.wav" 30 40 default_url_base) m
         (world (Sim.start [Sim.ko "e1"; Sim.ok "" ["o/abc123.wav"]] []))
    /\ (1 <= 5 -> Z.of_nat (S m) <= 5)
    /\ ((succeeds
           (attempt (command "abc123" "o/abc123.wav" 30 40 default_url_base)
              m
              (world
                 (Sim.start [Sim.ko "e1"; Sim.ok "" ["o/abc123.wav"]] [])))
         /\ MStr "Downloaded" = MStr "Downloaded"
         /\ true
            = path_exists "o/abc123.wav"
                {| Sim.script := []; Sim.disk := ["o/abc123.wav"] |})
        \/ (fails
              (attempt
                 (command "abc123" "o/abc123.wav" 30 40 default_url_base) m
                 (world
                    (Sim.start [Sim.ko "e1"; Sim.ok "" ["o/abc123.wav"]] [])))
            /\ MStr "Downloaded"
               = MBytes
                   (snd
                      (attempt
                         (command "abc123" "o/abc123.wav" 30 40
                            default_url_base)
                         m
                         (world
                            (Sim.start
                               [Sim.ko "e1"; Sim.ok "" ["o/abc123.wav"]] []))))
            /\ true = false
            /\ Z.of_nat (S m) = 5)).
Proof.
  refine (download_clip_inversion "abc123" "o/abc123.wav" 30 40
            default_tmp_dir 5 default_url_base 3%nat
            (Sim.start [Sim.ko "e1"; Sim.ok "" ["o/abc123.wav"]] [])
            {| world := {| Sim.script := []; Sim.disk := ["o/abc123.wav"] |};
               calls := repeat (command "abc123" "o/abc123.wav" 30 40
                                  default_url_base) 2 |}
            true (MStr "Downloaded") _).
  reflexivity.
Defined.

(** A result [True] always comes with the text ['Downloaded'] and with the
    destination file in place when the function returns; a message of
    captured bytes always comes with [False], after exactly [num_attempts]
    invocations. *)
Theorem download_clip_result_sound
    {World : Type} {P : Platform World}
    (video_identifier output_filename : string) (start_time end_time : Z)
    (tmp_dir : string) (num_attempts : Z) (url_base : string)
    (fuel : nat) (st st' : Sys World) (ok : bool) (msg : message) :
  download_clip fuel video_identifier output_filename start_time end_time
    tmp_dir num_attempts url_base st = Some ((ok, msg), st') ->
  (ok = true ->
   msg = MStr "Downloaded"
   /\ path_exists output_filename (world st') = true)
  /\ (forall output : string,
         msg = MBytes output ->
         ok = false /\ invocations st st' = num_attempts).
Proof.
  intros Hrun.
  apply download_clip_ends in Hrun
    as (m & _ & -> & _ & _ & [(_ & -> & ->)|(_ & -> & -> & Hn)]).
  - split.
    + intros Hfile. split; [reflexivity | exact Hfile].
    + intros output [=].
  - split.
    + intros [=].
    + intros output _. split; [reflexivity|].
      rewrite invocations_after_calls. exact Hn.
Qed.

Lemma download_clip_result_sound_witness :
  (false = true ->
   MBytes "e2" = MStr "Downloaded"
   /\ path_exists "o/xyz.wav" {| Sim.script := []; Sim.disk := [] |} = true)
  /\ (forall output : string,
         MBytes "e2" = MBytes output ->
         false = false
         /\ invocations (Sim.start [Sim.ko "e1"; Sim.ko "e2"] [])
              {| world := {| Sim.script := []; Sim.disk := [] |};
                 calls := repeat (command "xyz" "o/xyz.wav" 5 12
                                    default_url_base) 2 |}
            = 2).
Proof.
  refine (download_clip_result_sound "xyz" "o/xyz.wav" 5 12 default_tmp_dir 2
            default_url_base 2%nat (Sim.start [Sim.ko "e1"; Sim.ko "e2"] [])
            {| world := {| Sim.script := []; Sim.disk := [] |};
               calls := repeat (command "xyz" "o/xyz.wav" 5 12
                                  default_url_base) 2 |}
            false (MBytes "e2") _).
  reflexivity.
Defined.

(** With [num_attempts <= 0] the counter of failures, which starts at 1,
    never equals the budget: while the tool keeps failing, [download_clip]
    does not return, whatever the fuel. *)
Theorem download_clip_never_returns
    {World : Type} {P : Platform World}
    (video_identifier output_filename : string) (start_time end_time : Z)
    (tmp_dir : string) (num_attempts : Z) (url_base : string)
    (fuel : nat) (st : Sys World) :
  num_attempts <= 0 ->
  (forall k : nat,
      fails (attempt (command video_identifier output_filename start_time
                        end_time url_base) k (world st))) ->
  download_clip fuel video_identifier output_filename start_time end_time
    tmp_dir num_attempts url_base st = None.
Proof.
  intros Hn Hfail. unfold download_clip, bind.
  now rewrite while_true_diverges.
Qed.

Lemma download_clip_never_returns_witness :
  download_clip 1000 "xyz" "o/xyz.wav" 5 12 default_tmp_dir (-1)
    default_url_base (Sim.start [] []) = None.
Proof.
  refine (download_clip_never_returns "xyz" "o/xyz.wav" 5 12 default_tmp_dir
            (-1) default_url_base 1000%nat (Sim.start [] []) _ _).
  - lia.
  - intros k. apply sim_played_out_fails.
Defined.

(** With [num_attempts <= 0] there is no budget at all: however many
    failures come first, the first success is reached, after exactly [k]
    invocations, and the result is the existence of the destination file. *)
Theorem download_clip_retries_without_budget
    {World : Type} {P : Platform World}
    (video_identifier output_filename : string) (start_time end_time : Z)
    (tmp_dir : string) (num_attempts : Z) (url_base : string)
    (k fuel : nat) (st : Sys World) :
  let cmd :=
    command video_identifier output_filename start_time end_time url_base in
  num_attempts <= 0 ->
  first_success_at cmd k (world st) ->
  (k <= fuel)%nat ->
  download_clip fuel video_identifier output_filename start_time end_time
    tmp_dir num_attempts url_base st
  = Some ((path_exists output_filename (world_after cmd k (world st)),
           MStr "Downloaded"),
          after_calls cmd k st).
Proof.
  intros cmd Hn Hfirst Hfuel. subst cmd.
  apply download_clip_first_success; [exact Hfirst | | exact Hfuel].
  intros i Hi. lia.
Qed.

Lemma download_clip_retries_without_budget_witness :
  download_clip 7 "xyz" "o/xyz.wav" 5 12 default_tmp_dir 0 default_url_base
    (Sim.start [Sim.ko "e1"; Sim.ko "e2"; Sim.ko "e3"; Sim.ko "e4";
                Sim.ko "e5"; Sim.ko "e6"; Sim.ok "" ["o/xyz.wav"]] [])
  = Some ((true, MStr "Downloaded"),
          after_calls (command "xyz" "o/xyz.wav" 5 12 default_url_base) 7
            (Sim.start [Sim.ko "e1"; Sim.ko "e2"; Sim.ko "e3"; Sim.ko "e4";
                        Sim.ko "e5"; Sim.ko "e6"; Sim.ok "" ["o/xyz.wav"]]
               [])).
Proof.
  refine (download_clip_retries_without_budget "xyz" "o/xyz.wav" 5 12
            default_tmp_dir 0 default_url_base 7%nat 7%nat
            (Sim.start [Sim.ko "e1"; Sim.ko "e2"; Sim.ko "e3"; Sim.ko "e4";
                        Sim.ko "e5"; Sim.ko "e6"; Sim.ok "" ["o/xyz.wav"]]
               [])
            _ _ _).
  - lia.
  - split; [lia | split].
    + intros i Hi.
      do 6 (destruct i as [|i]; [discriminate|]). simpl in Hi. lia.
    + reflexivity.
  - lia.
Defined.

(** ** More on [process] *)

Section ProcessInversion.

Context {World : Type} {P : Platform World}.

Variables (data_dir : string) (example : Example).

Local Abbreviation outfile_path :=
  (path_join data_dir (ytid example ++ ".wav")).

Local Abbreviation cmd :=
  (command (ytid example) outfile_path (start_s example) (end_s example)
     default_url_base).

(** Every way [process] can return: the skip, or a call of [download_clip]
    with the default arguments. *)
Lemma process_ends (fuel : nat) (st st' : Sys World) (example' : Example) :
  process fuel data_dir example st = Some (example', st') ->
  (path_exists outfile_path (world st) = true
   /\ example' = recorded_row data_dir example true
   /\ st' = st)
  \/ (path_exists outfile_path (world st) = false
      /\ exists r : bool * message,
          download_clip fuel (ytid example) outfile_path (start_s example)
            (end_s example) default_tmp_dir default_num_attempts
            default_url_base st = Some (r, st')
          /\ example' = recorded_row data_dir example (fst r)).
Proof.
  unfold process, bind, os_path_exists, ret.
  destruct (path_exists outfile_path (world st)) eqn:Hfile; simpl.
  - intros [= <- <-]. left. now split.
  - unfold bind.
    destruct (download_clip fuel (ytid example) outfile_path
                (start_s example) (end_s example) default_tmp_dir
                default_num_attempts default_url_base st)
      as [[r st1]|] eqn:Hrun; [|discriminate].
    intros [= <- <-]. right. split; [reflexivity|].
    exists r. now split.
Qed.

(** The shell log of a returning [process]: at most five runs of the row's
    command, none when the file was there. *)
Lemma process_calls (fuel : nat) (st st' : Sys World) (example' : Example) :
  process fuel data_dir example st = Some (example', st') ->
  exists n : nat,
    (n <= 5)%nat
    /\ st' = after_calls cmd n st
    /\ (path_exists outfile_path (world st) = true -> n = 0%nat).
Proof.
  intros Hrun.
  apply process_ends in Hrun as [(Hfile & _ & ->)|(Hfile & r & Hrun & _)].
  - exists 0%nat. split; [lia | split; [|reflexivity]].
    symmetry. apply after_calls_0.
  - destruct r as [ok msg].
    apply download_clip_ends in Hrun as (m & _ & -> & _ & Hbound & _).
    exists (S m). split; [|split; [reflexivity|]].
    + unfold default_num_attempts in Hbound. lia.
    + rewrite Hfile. discriminate.
Qed.

Lemma process_true_file (fuel : nat) (st st' : Sys World)
    (example' : Example) :
  process fuel data_dir example st = Some (example', st') ->
  download_status example' = Some true ->
  path_exists outfile_path (world st') = true.
Proof.
  intros Hrun Hstatus.
  apply process_ends in Hrun as [(Hfile & _ & ->)|(_ & r & Hrun & ->)];
    [exact Hfile|].
  destruct r as [ok msg]. simpl in Hstatus. injection Hstatus as ->.
  apply download_clip_ends in Hrun
    as (m & _ & -> & _ & _ & [(_ & _ & Hok)|(_ & _ & [=] & _)]).
  now symmetry.
Qed.

End ProcessInversion.

(** A status [True] in the row [process] returns means the destination file
    is in place when [process] returns, whether it was found or fetched. *)
Theorem process_true_means_file
    {World : Type} {P : Platform World}
    (data_dir : string) (example example' : Example) (fuel : nat)
    (st st' : Sys World) :
  process fuel data_dir example st = Some (example', st') ->
  download_status example' = Some true ->
  path_exists (path_join data_dir (ytid example ++ ".wav")) (world st') = true.
Proof. apply process_true_file. Qed.

Lemma process_true_means_file_witness :
  path_exists
    (path_join "music_data" (ytid {| ytid := "abc123"; start_s := 30;
                                     end_s := 40; audio := None;
                                     download_status := None |} ++ ".wav"))
    (world {| world := {| Sim.script := [];
                          Sim.disk := ["music_data/abc123.wav"] |};
              calls := repeat (command "abc123" "music_data/abc123.wav" 30 40
                                 default_url_base) 2 |})
  = true.
Proof.
  refine (process_true_means_file "music_data"
            {| ytid := "abc123"; start_s := 30; end_s := 40;
               audio := None; download_status := None |}
            {| ytid := "abc123"; start_s := 30; end_s := 40;
               audio := Some "music_data/abc123.wav";
               download_status := Some true |}
            5%nat
            (Sim.start [Sim.ko "e1"; Sim.ok "" ["music_data/abc123.wav"]] [])
            _ _ _).
  - reflexivity.
  - reflexivity.
Defined.

(** Once a row is recorded with status [True], processing the returned row
    again is a no-op: the same row comes back, the state is untouched, and
    nothing is handed to the shell. *)
Theorem process_idempotent_after_success
    {World : Type} {P : Platform World}
    (data_dir : string) (example example' : Example) (fuel fuel' : nat)
    (st st' : Sys World) :
  process fuel data_dir example st = Some (example', st') ->
  download_status example' = Some true ->
  process fuel' data_dir example' st' = Some (example', st').
Proof.
  intros Hrun Hstatus.
  pose proof (process_true_file data_dir example fuel st st' example'
                Hrun Hstatus) as Hfile.
  apply process_ends in Hrun as [(_ & -> & _)|(_ & r & _ & ->)].
  - exact (process_skip data_dir (recorded_row data_dir example true)
             fuel' st' Hfile).
  - simpl in Hstatus. injection Hstatus as Hr. rewrite Hr.
    exact (process_skip data_dir (recorded_row data_dir example true)
             fuel' st' Hfile).
Qed.

Lemma process_idempotent_after_success_witness :
  process 0 "music_data"
    {| ytid := "abc123"; start_s := 30; end_s := 40;
       audio := Some "music_data/abc123.wav";
       download_status := Some true |}
    {| world := {| Sim.script := [];
                   Sim.disk := ["music_data/abc123.wav"] |};
       calls := repeat (command "abc123" "music_data/abc123.wav" 30 40
                          default_url_base) 2 |}
  = Some ({| ytid := "abc123"; start_s := 30; end_s := 40;
             audio := Some "music_data/abc123.wav";
             download_status := Some true |},
          {| world := {| Sim.script := [];
                         Sim.disk := ["music_data/abc123.wav"] |};
             calls := repeat (command "abc123" "music_data/abc123.wav" 30 40
                                default_url_base) 2 |}).
Proof.
  refine (process_idempotent_after_success "music_data"
            {| ytid := "abc123"; start_s := 30; end_s := 40;
               audio := None; download_status := None |}
            _ 5%nat 0%nat
            (Sim.start [Sim.ko "e1"; Sim.ok "" ["music_data/abc123.wav"]] [])
            _ _ _).
  - reflexivity.
  - reflexivity.
Defined.

(** A returning [process] has handed the row's command to the shell at most
    five times and nothing else, has left the world as those runs left it,
    and has run nothing at all when the destination file was there. *)
Theorem process_invocation_bound
    {World : Type} {P : Platform World}
    (data_dir : string) (example example' : Example) (fuel : nat)
    (st st' : Sys World) :
  let outfile_path := path_join data_dir (ytid example ++ ".wav") in
  process fuel data_dir example st = Some (example', st') ->
  exists n : nat,
    (n <= 5)%nat
    /\ st' = after_calls
               (command (ytid example) outfile_path (start_s example)
                  (end_s example) default_url_base) n st
    /\ (path_exists outfile_path (world st) = true -> n = 0%nat).
Proof. intros outfile_path. apply process_calls. Qed.

Lemma process_invocation_bound_witness :
  exists n : nat,
    (n <= 5)%nat
    /\ {| world := {| Sim.script := []; Sim.disk := [] |};
          calls := repeat (command "xyz" "music_data/xyz.wav" 5 12
                             default_url_base) 5 |}
       = after_calls
           (command "xyz" "music_data/xyz.wav" 5 12 default_url_base) n
           (Sim.start [] [])
    /\ (path_exists "music_data/xyz.wav" (world (Sim.start [] [])) = true ->
        n = 0%nat).
Proof.
  refine (process_invocation_bound "music_data"
            {| ytid := "xyz"; start_s := 5; end_s := 12;
               audio := None; download_status := None |}
            {| ytid := "xyz"; start_s := 5; end_s := 12;
               audio := Some "music_data/xyz.wav";
               download_status := Some false |}
            5%nat (Sim.start [] [])
            {| world := {| Sim.script := []; Sim.disk := [] |};
               calls := repeat (command "xyz" "music_data/xyz.wav" 5 12
                                  default_url_base) 5 |}
            _).
  reflexivity.
Defined.

(** A status [False] is recorded only after a fetch: the destination file
    was not there, and either the tool failed five times in a row, or it
    reported success within five attempts and the file was still not there. *)
Theorem process_false_means_attempted
    {World : Type} {P : Platform World}
    (data_dir : string) (example example' : Example) (fuel : nat)
    (st st' : Sys World) :
  let outfile_path := path_join data_dir (ytid example ++ ".wav") in
  let cmd :=
    command (ytid example) outfile_path (start_s example) (end_s example)
      default_url_base in
  process fuel data_dir example st = Some (example', st') ->
  download_status example' = Some false ->
  path_exists outfile_path (world st) = false
  /\ ((all_fail cmd 5 (world st) /\ st' = after_calls cmd 5 st)
      \/ (exists k : nat,
             (k <= 5)%nat
             /\ first_success_at cmd k (world st)
             /\ st' = after_calls cmd k st
             /\ path_exists outfile_path (world st') = false)).
Proof.
  intros outfile_path cmd Hrun Hstatus.
  apply process_ends in Hrun as [(_ & -> & _)|(Hfile & r & Hrun & ->)];
    [discriminate Hstatus|].
  split; [exact Hfile|].
  destruct r as [ok msg]. simpl in Hstatus. injection Hstatus as ->.
  apply download_clip_ends in Hrun
    as (m & _ & -> & Hfail & Hbound & [(Hok & _ & Hmissing)|(Hko & _ & _ & Hn)]).
  - right. exists (S m).
    unfold default_num_attempts in Hbound.
    split; [lia | split; [|split; [reflexivity | now symmetry]]].
    split; [lia|]. replace (S m - 1)%nat with m by lia. now split.
  - left. unfold default_num_attempts in Hn.
    assert (m = 4%nat) as -> by lia.
    split; [|reflexivity].
    intros i Hi. destruct (Nat.eq_dec i 4) as [->|Hne]; [exact Hko|].
    apply Hfail. lia.
Qed.

Lemma process_false_means_attempted_witness :
  path_exists "music_data/xyz.wav" (world (Sim.start [Sim.ok "done" []] []))
  = false
  /\ ((all_fail (command "xyz" "music_data/xyz.wav" 5 12 default_url_base) 5
         (world (Sim.start [Sim.ok "done" []] []))
       /\ {| world := {| Sim.script := []; Sim.disk := [] |};
             calls := [command "xyz" "music_data/xyz.wav" 5 12
                         default_url_base] |}
          = after_calls
              (command "xyz" "music_data/xyz.wav" 5 12 default_url_base) 5
              (Sim.start [Sim.ok "done" []] []))
      \/ (exists k : nat,
             (k <= 5)%nat
             /\ first_success_at
                  (command "xyz" "music_data/xyz.wav" 5 12 default_url_base)
                  k (world (Sim.start [Sim.ok "done" []] []))
             /\ {| world := {| Sim.script := []; Sim.disk := [] |};
                   calls := [command "xyz" "music_data/xyz.wav" 5 12
                               default_url_base] |}
                = after_calls
                    (command "xyz" "music_data/xyz.wav" 5 12
                       default_url_base) k
                    (Sim.start [Sim.ok "done" []] [])
             /\ path_exists "music_data/xyz.wav"
                  (world
                     {| world := {| Sim.script := []; Sim.disk := [] |};
                        calls := [command "xyz" "music_data/xyz.wav" 5 12
                                    default_url_base] |})
                = false)).
Proof.
  refine (process_false_means_attempted "music_data"
            {| ytid := "xyz"; start_s := 5; end_s := 12;
               audio := None; download_status := None |}
            {| ytid := "xyz"; start_s := 5; end_s := 12;
               audio := Some "music_data/xyz.wav";
               download_status := Some false |}
            5%nat (Sim.start [Sim.ok "done" []] [])
            {| world := {| Sim.script := []; Sim.disk := [] |};
               calls := [command "xyz" "music_data/xyz.wav" 5 12
                           default_url_base] |}
            _ _).
  - reflexivity.
  - reflexivity.
Defined.

(** ** The map over the dataset *)

Section DriverFacts.

Context {World : Type} {P : Platform World}.

Variable data_dir : string.





End DriverFacts.




